(** * CustomMistralLLM: the endpoint adapter of [mistral_llm.py]

    A shallow embedding of the class [CustomMistralLLM] and of the Python and
    [requests] operations its two methods use, followed by the properties of
    the adapter: what it sends, what it returns for each shape of response,
    which exceptions leave it, and what it leaves untouched.

    Python values are modelled as the code meets them:
    - [str] is a sequence of Unicode code points;
    - a decoded JSON document is one of [None], [bool], [int], [float],
      [str], [list], [dict] with [str] keys;
    - a call either returns a value or raises an exception, and threads a
      world holding the adapter object, the network and the log of the
      [requests.post] calls made so far. *)

From Stdlib Require Import ZArith NArith List Floats Ascii String Lia Bool.
From Stdlib.Strings Require Import Byte.
From stdpp Require Import gmap strings list fin_maps.

Set Warnings "-register-all,-inexact-float".

Local Open Scope Z_scope.

(** ** Python strings *)

(** A Python [str]: a sequence of code points. *)
Abbreviation str := (list N).

(** The [str] written by a literal of ASCII characters. *)
Definition py (s : string) : str :=
  (fun a => N_of_ascii a) <$> list_ascii_of_string s.

(** [str.isspace] on one code point (CPython's [_PyUnicode_IsWhitespace]):
    the characters [str.strip()] removes. *)
Definition isspace (c : N) : bool :=
  ((0x09 <=? c) && (c <=? 0x0D) || (0x1C <=? c) && (c <=? 0x20)
   || (c =? 0x85) || (c =? 0xA0) || (c =? 0x1680)
   || (0x2000 <=? c) && (c <=? 0x200A)
   || (c =? 0x2028) || (c =? 0x2029) || (c =? 0x202F) || (c =? 0x205F)
   || (c =? 0x3000))%N.

(** [s.lstrip()]: drop the leading whitespace. *)
Fixpoint lstrip (s : str) : str :=
  match s with
  | c :: s' => if isspace c then lstrip s' else s
  | [] => []
  end.

(** [s.rstrip()]: drop the trailing whitespace. *)
Fixpoint rstrip (s : str) : str :=
  match s with
  | c :: s' =>
      match rstrip s' with
      | [] => if isspace c then [] else [c]
      | r => c :: r
      end
  | [] => []
  end.

(** [s.strip()]. *)
Definition strip (s : str) : str := rstrip (lstrip s).

(** [a.startswith(b)] and [b in a] for two strings. *)
Fixpoint startswith (a b : str) : bool :=
  match b, a with
  | [], _ => true
  | y :: b', x :: a' => (x =? y)%N && startswith a' b'
  | _ :: _, [] => false
  end.

Fixpoint str_contains (a b : str) : bool :=
  startswith a b ||
  match a with
  | [] => false
  | _ :: a' => str_contains a' b
  end.

(** ** Decoded JSON documents *)

(** What [json.loads] produces. *)
Inductive json :=
| JNull
| JBool (b : bool)
| JInt (z : Z)
| JFloat (f : float)
| JString (s : str)
| JArray (l : list json)
| JObject (m : gmap (list N) json).

(** A subscript: [x["key"]] or [x[0]]. *)
Inductive subscript :=
| KStr (s : str)
| KInt (i : Z).

(** ** Requests, responses, exceptions *)

(** The keyword arguments of one [requests.post(url, headers=, json=, verify=)]. *)
Record Request := {
  url : str;
  headers : gmap (list N) (list N);
  json_payload : gmap (list N) json;
  verify : bool
}.

(** A [requests.Response]: the status code and the raw body. *)
Record Response := {
  status_code : Z;
  content : list byte
}.

(** The failures of [requests.post] itself: the subclasses of
    [requests.RequestException] raised before a response exists. *)
Inductive TransportError :=
| ConnectionError
| Timeout
| TooManyRedirects
| InvalidURL.

Inductive exn :=
| HTTPError (response : Response)
| JSONDecodeError
| TypeError
| KeyError (k : subscript)
| IndexError
| AttributeError
| RequestException (e : TransportError).

(** ** The adapter object *)

Record CustomMistralLLM := {
  endpoint : str;
  auth_token : str;
  temperature : float
}.

(** The default of the field [temperature]. *)
Definition default_temperature : float := 0.7%float.

(** Construction: [CustomMistralLLM(endpoint=e, auth_token=a)] or
    [CustomMistralLLM(endpoint=e, auth_token=a, temperature=t)]. *)
Definition new (e a : str) (t : option float) : CustomMistralLLM :=
  {| endpoint := e; auth_token := a;
     temperature := match t with Some t => t | None => default_temperature end |}.

(** The values of the mapping [_identifying_params] returns. *)
Inductive param :=
| PStr (s : str)
| PFloat (f : float).

(** ** Worlds and computations *)

(** The world a method runs in: the adapter object, the endpoint's behaviour
    (its answer to a request, given the requests seen before), and the log
    of the [requests.post] calls made so far. *)
Record World := {
  this : CustomMistralLLM;
  network : list Request -> Request -> Response + TransportError;
  sent : list Request
}.

Inductive outcome (A : Type) :=
| Return (a : A)
| Raise (e : exn).
Arguments Return {A} a.
Arguments Raise {A} e.

(** A computation: from a world to an outcome and the world after it. *)
Definition M (A : Type) : Type := World -> outcome A * World.

Definition ret {A} (a : A) : M A := fun w => (Return a, w).
Definition raise {A} (e : exn) : M A := fun w => (Raise e, w).
Definition bind {A B} (c : M A) (k : A -> M B) : M B :=
  fun w =>
    match c w with
    | (Return a, w') => k a w'
    | (Raise e, w') => (Raise e, w')
    end.

Declare Scope py_scope.
Delimit Scope py_scope with py.
Notation "x <- c ;; k" := (bind c (fun x => k))
  (at level 100, c at next level, right associativity) : py_scope.
Notation "c ;;; k" := (bind c (fun _ => k))
  (at level 100, right associativity) : py_scope.
Local Open Scope py_scope.

(** Reading [self]. *)
Definition get_self : M CustomMistralLLM := fun w => (Return (this w), w).

(** [requests.post(url, headers=headers, json=data, verify=verify)]: the call
    is logged, and the endpoint answers or the transport fails. *)
Definition requests_post (u : str) (h : gmap (list N) (list N))
    (data : gmap (list N) json) (v : bool) : M Response :=
  fun w =>
    let req := {| url := u; headers := h; json_payload := data; verify := v |} in
    let w' := {| this := this w; network := network w;
                 sent := sent w ++ [req] |} in
    match network w (sent w) req with
    | inl r => (Return r, w')
    | inr e => (Raise (RequestException e), w')
    end.

(** [response.raise_for_status()] of [requests]: an [HTTPError] holding the
    response for a client error (400 to 499) or a server error (500 to 599),
    nothing otherwise. *)
Definition raise_for_status (r : Response) : M unit :=
  if (400 <=? status_code r) && (status_code r <? 500) then raise (HTTPError r)
  else if (500 <=? status_code r) && (status_code r <? 600) then raise (HTTPError r)
  else ret tt.

(** ** Python operations on decoded JSON *)

(** [key in x] for a [str] key: key membership in a dict, element membership
    in a list, substring in a str; other types are not iterable. *)
Definition contains (key : str) (x : json) : M bool :=
  match x with
  | JObject m => ret (bool_decide (is_Some (m !! key)))
  | JArray l =>
      ret (existsb (fun e => match e with
                             | JString s => bool_decide (s = key)
                             | _ => false
                             end) l)
  | JString s => ret (str_contains s key)
  | _ => raise TypeError
  end.

(** [x[k]]. A dict decoded from JSON has only [str] keys; a list or a str
    takes an integer (negative ones count from the end). *)
Definition getitem (x : json) (k : subscript) : M json :=
  match x, k with
  | JObject m, KStr s =>
      match m !! s with
      | Some v => ret v
      | None => raise (KeyError k)
      end
  | JObject m, KInt _ => raise (KeyError k)
  | JArray l, KInt i =>
      let j := if i <? 0 then i + Z.of_nat (length l) else i in
      if j <? 0 then raise IndexError
      else match l !! Z.to_nat j with
           | Some v => ret v
           | None => raise IndexError
           end
  | JString s, KInt i =>
      let j := if i <? 0 then i + Z.of_nat (length s) else i in
      if j <? 0 then raise IndexError
      else match s !! Z.to_nat j with
           | Some c => ret (JString [c])
           | None => raise IndexError
           end
  | _, _ => raise TypeError
  end.

(** [len(x)]. *)
Definition len (x : json) : M Z :=
  match x with
  | JObject m => ret (Z.of_nat (size m))
  | JArray l => ret (Z.of_nat (length l))
  | JString s => ret (Z.of_nat (length s))
  | _ => raise TypeError
  end.

(** [x.strip()]: only a str has the method. *)
Definition strip_method (x : json) : M str :=
  match x with
  | JString s => ret (strip s)
  | _ => raise AttributeError
  end.

(** [a and b], evaluating [b] only when [a] is true. *)
Definition and_then (a b : M bool) : M bool :=
  x <- a ;; if x then b else ret false.

(** ** The methods of [CustomMistralLLM] *)

Section Adapter.

(** The decoder behind [response.json()]: [None] when the body is not a JSON
    document. *)
Variable loads : list byte -> option json.

(** [response.json()]. *)
Definition json_method (r : Response) : M json :=
  match loads (content r) with
  | Some j => ret j
  | None => raise JSONDecodeError
  end.

Definition _llm_type : M str := ret (py "custom_mistral").

Definition _call {Any : Type} (prompt : str) (stop : option (list str))
    (kwargs : gmap (list N) Any) : M str :=
  self <- get_self ;;
  let headers : gmap (list N) (list N) :=
    {[ py "Authorization" := py "Bearer " ++ auth_token self;
       py "Content-Type" := py "application/json" ]} in
  let data : gmap (list N) json := {[ py "prompt" := JString prompt ]} in
  response <- requests_post (endpoint self) headers data false ;;
  raise_for_status response ;;;
  response_json <- json_method response ;;
  b <- and_then (contains (py "outputs") response_json)
                (o <- getitem response_json (KStr (py "outputs")) ;;
                 n <- len o ;;
                 ret (0 <? n)) ;;
  if b then
    o <- getitem response_json (KStr (py "outputs")) ;;
    e <- getitem o (KInt 0) ;;
    t <- getitem e (KStr (py "text")) ;;
    strip_method t
  else ret (py "No text generated.").

Definition _identifying_params : M (gmap (list N) param) :=
  self <- get_self ;;
  ret {[ py "endpoint" := PStr (endpoint self);
         py "temperature" := PFloat (temperature self) ]}.

(** Lines 33 to 36 of [_call] as a computation of their own: from the decoded
    document to the result. *)
Definition extract (response_json : json) : M str :=
  b <- and_then (contains (py "outputs") response_json)
                (o <- getitem response_json (KStr (py "outputs")) ;;
                 n <- len o ;;
                 ret (0 <? n)) ;;
  if b then
    o <- getitem response_json (KStr (py "outputs")) ;;
    e <- getitem o (KInt 0) ;;
    t <- getitem e (KStr (py "text")) ;;
    strip_method t
  else ret (py "No text generated.").

(** Lines 30 to 36 of [_call]: what it does with the response it received.
    [call_unfold] relates the two. *)
Definition on_response (response : Response) : M str :=
  raise_for_status response ;;;
  response_json <- json_method response ;;
  extract response_json.

End Adapter.

Arguments py : simpl never.

(** The request [_call] posts for a prompt (see [call_posts]). *)
Definition posted (self : CustomMistralLLM) (prompt : str) : Request :=
  {| url := endpoint self;
     headers := {[ py "Authorization" := py "Bearer " ++ auth_token self;
                   py "Content-Type" := py "application/json" ]};
     json_payload := {[ py "prompt" := JString prompt ]};
     verify := false |}.

(** The world after one more [requests.post]. *)
Definition logged (w : World) (req : Request) : World :=
  {| this := this w; network := network w; sent := sent w ++ [req] |}.

(** A caller's invocation of [_call]. *)
Record Invocation := {
  inv_prompt : str;
  inv_stop : option (list str);
  inv_kwargs : gmap (list N) json
}.

(** A caller that invokes [_call] again and again, going on after an
    exception as after a result. *)
Fixpoint run_calls (loads : list byte -> option json) (cs : list Invocation)
    (w : World) : World :=
  match cs with
  | [] => w
  | c :: cs' =>
      run_calls loads cs'
        (snd (_call loads (inv_prompt c) (inv_stop c) (inv_kwargs c) w))
  end.

(** What the text of element 0 becomes. *)
Definition of_element (e : json) : outcome str :=
  match e with
  | JObject f =>
      match f !! py "text" with
      | Some (JString t) => Return (strip t)
      | Some _ => Raise AttributeError
      | None => Raise (KeyError (KStr (py "text")))
      end
  | _ => Raise TypeError
  end.

(** The outcomes [extract] can have: a string with no whitespace at either
    end, or one of three exceptions. *)
Definition extract_result (o : outcome str) : Prop :=
  match o with
  | Return s => strip s = s
  | Raise e => e = TypeError \/ (exists k, e = KeyError k) \/ e = AttributeError
  end.

(** [c] does not read or change the world. *)
Definition pure {A} (c : M A) : Prop := exists o, forall w, c w = (o, w).

(** ** A decoder and an endpoint for the examples *)

Module Example.

(** JSON whitespace. *)
Definition is_ws (c : N) : bool :=
  ((c =? 0x20) || (c =? 0x09) || (c =? 0x0A) || (c =? 0x0D))%N.

Fixpoint skip_ws (s : list N) : list N :=
  match s with
  | c :: s' => if is_ws c then skip_ws s' else s
  | [] => []
  end.

(** The rest of a string literal, after its opening quote. *)
Fixpoint scan_string (s : list N) (acc : list N) : option (list N * list N) :=
  match s with
  | [] => None
  | 34%N :: rest => Some (rev acc, rest)
  | 92%N :: e :: rest =>
      if (e =? 34)%N || (e =? 92)%N || (e =? 47)%N
      then scan_string rest (e :: acc)
      else if (e =? 110)%N then scan_string rest (10%N :: acc)
      else if (e =? 116)%N then scan_string rest (9%N :: acc)
      else if (e =? 114)%N then scan_string rest (13%N :: acc)
      else None
  | c :: rest =>
      if (c <? 32)%N || (127 <? c)%N then None else scan_string rest (c :: acc)
  end.

(** A run of decimal digits. *)
Fixpoint scan_digits (s : list N) (acc : Z) : Z * list N :=
  match s with
  | c :: rest =>
      if (48 <=? c)%N && (c <=? 57)%N
      then scan_digits rest (10 * acc + Z.of_N (c - 48))
      else (acc, s)
  | [] => (acc, [])
  end.

(** [rest] when [s] is [p] followed by [rest]. *)
Fixpoint after_prefix (p s : list N) : option (list N) :=
  match p, s with
  | [], _ => Some s
  | x :: p', y :: s' => if (x =? y)%N then after_prefix p' s' else None
  | _ :: _, [] => None
  end.

(** [null], [true], [false] or an integer. *)
Definition scan_atom (s : list N) : option (json * list N) :=
  match after_prefix (py "null") s, after_prefix (py "true") s,
        after_prefix (py "false") s with
  | Some rest, _, _ => Some (JNull, rest)
  | _, Some rest, _ => Some (JBool true, rest)
  | _, _, Some rest => Some (JBool false, rest)
  | _, _, _ =>
      let '(neg, ds) := match s with
                        | 45%N :: s' => (true, s')
                        | _ => (false, s)
                        end in
      match ds with
      | c :: _ =>
          if (48 <=? c)%N && (c <=? 57)%N then
            let '(n, rest) := scan_digits ds 0 in
            Some (JInt (if neg then - n else n), rest)
          else None
      | [] => None
      end
  end.

(** One JSON value at the head of [s], and what follows it. *)
Fixpoint parse_value (fuel : nat) (s : list N) : option (json * list N) :=
  match fuel with
  | O => None
  | S fuel' =>
      match skip_ws s with
      | 34%N :: rest =>
          match scan_string rest [] with
          | Some (t, rest') => Some (JString t, rest')
          | None => None
          end
      | 91%N :: rest =>
          match skip_ws rest with
          | 93%N :: rest' => Some (JArray [], rest')
          | _ => parse_items fuel' rest []
          end
      | 123%N :: rest =>
          match skip_ws rest with
          | 125%N :: rest' => Some (JObject ∅, rest')
          | _ => parse_members fuel' rest ∅
          end
      | other => scan_atom other
      end
  end
with parse_items (fuel : nat) (s : list N) (acc : list json)
    : option (json * list N) :=
  match fuel with
  | O => None
  | S fuel' =>
      match parse_value fuel' s with
      | Some (v, rest) =>
          match skip_ws rest with
          | 44%N :: rest' => parse_items fuel' rest' (v :: acc)
          | 93%N :: rest' => Some (JArray (rev (v :: acc)), rest')
          | _ => None
          end
      | None => None
      end
  end
with parse_members (fuel : nat) (s : list N) (acc : gmap (list N) json)
    : option (json * list N) :=
  match fuel with
  | O => None
  | S fuel' =>
      match skip_ws s with
      | 34%N :: rest =>
          match scan_string rest [] with
          | Some (k, rest1) =>
              match skip_ws rest1 with
              | 58%N :: rest2 =>
                  match parse_value fuel' rest2 with
                  | Some (v, rest3) =>
                      match skip_ws rest3 with
                      | 44%N :: rest4 => parse_members fuel' rest4 (<[k:=v]> acc)
                      | 125%N :: rest4 => Some (JObject (<[k:=v]> acc), rest4)
                      | _ => None
                      end
                  | None => None
                  end
              | _ => None
              end
          | None => None
          end
      | _ => None
      end
  end.

(** A decoder for the JSON texts of the examples: ASCII only, integers for
    numbers, the escapes of quote, backslash, slash, [n], [t] and [r]. *)
Definition loads (body : list byte) : option json :=
  let s := (fun b => Byte.to_N b) <$> body in
  match parse_value (2 * length s + 2) s with
  | Some (v, rest) =>
      match skip_ws rest with
      | [] => Some v
      | _ => None
      end
  | None => None
  end.

(** The bytes of a body written with ['] where JSON has the double quote. *)
Definition body (s : string) : list byte :=
  (fun b => if Byte.eqb b "'"%byte then x22 else b) <$> list_byte_of_string s.

(** An adapter, and a mocked endpoint that answers every request with [r]. *)
Definition adapter : CustomMistralLLM :=
  new (py "https://models.example/v1/generate") (py "s3cr3t") None.

Definition mock (r : Response) : World :=
  {| this := adapter; network := fun _ _ => inl r; sent := [] |}.

Definition ok (s : string) : Response :=
  {| status_code := 200; content := body s |}.

(** An endpoint that cannot be reached: every [requests.post] fails with
    [e]. *)
Definition down (e : TransportError) : World :=
  {| this := adapter; network := fun _ _ => inr e; sent := [] |}.

(** A second adapter for the same endpoint and token, with a temperature of
    its own, in front of the same kind of mock. *)
Definition mock_cold (r : Response) : World :=
  {| this := new (py "https://models.example/v1/generate") (py "s3cr3t")
               (Some 0.1%float);
     network := fun _ _ => inl r; sent := [] |}.

End Example.

(** * Properties *)

(** ** The example decoder at work *)

Example loads_hello :
  Example.loads (Example.body "{'outputs':[{'text':'  hello world  '}]}")
  = Some (JObject {[ py "outputs" :=
        JArray [JObject {[ py "text" := JString (py "  hello world  ") ]}] ]}).
Proof. vm_compute. reflexivity. Qed.

Example loads_misc :
  Example.loads (Example.body " {'a': [1, -20, true, null, {}], 'b': 'x\ny'} ")
  = Some (JObject {[ py "a" := JArray [JInt 1; JInt (-20); JBool true; JNull; JObject ∅];
                     py "b" := JString [120%N; 10%N; 121%N] ]}).
Proof. vm_compute. reflexivity. Qed.

Example loads_not_json :
  Example.loads (Example.body "<html>Bad gateway</html>") = None.
Proof. vm_compute. reflexivity. Qed.

Example call_hello :
  fst (_call Example.loads (py "hi") None (∅ : gmap (list N) json)
         (Example.mock (Example.ok "{'outputs':[{'text':'  hello world  '}]}")))
  = Return (py "hello world").
Proof. vm_compute. reflexivity. Qed.


(** ** [str.strip] *)

Lemma lstrip_split (s : str) :
  exists l, s = l ++ lstrip s /\ forallb isspace l = true.
Proof.
  induction s as [|c s [l [Hs Hl]]]; simpl.
  - exists []. split; reflexivity.
  - destruct (isspace c) eqn:Hc.
    + exists (c :: l). split.
      * simpl. congruence.
      * simpl. rewrite Hc. exact Hl.
    + exists []. split; reflexivity.
Qed.

Lemma lstrip_head (s : str) (c : N) :
  head (lstrip s) = Some c -> isspace c = false.
Proof.
  induction s as [|x s IH]; simpl; [discriminate|].
  destruct (isspace x) eqn:Hx; [exact IH|].
  simpl. intros [= <-]. exact Hx.
Qed.

Lemma rstrip_split (s : str) :
  exists r, s = rstrip s ++ r /\ forallb isspace r = true.
Proof.
  induction s as [|c s [r [Hs Hr]]]; simpl.
  - exists []. split; reflexivity.
  - destruct (rstrip s) as [|y t] eqn:Hrs.
    + simpl in Hs. subst r. destruct (isspace c) eqn:Hc.
      * exists (c :: s). split; [reflexivity|]. simpl. rewrite Hc. exact Hr.
      * exists s. split; [reflexivity|exact Hr].
    + exists r. split; [|exact Hr]. simpl. simpl in Hs. congruence.
Qed.

Lemma rstrip_last (s : str) (c : N) :
  last (rstrip s) = Some c -> isspace c = false.
Proof.
  induction s as [|x s IH]; simpl; [discriminate|].
  destruct (rstrip s) as [|y t] eqn:Hrs.
  - destruct (isspace x) eqn:Hx; simpl; [discriminate|].
    intros [= <-]. exact Hx.
  - intros H. apply IH. rewrite <- H. reflexivity.
Qed.

Lemma rstrip_head (s : str) (c : N) :
  head s = Some c -> isspace c = false -> head (rstrip s) = Some c.
Proof.
  destruct s as [|x s]; simpl; [discriminate|].
  intros [= ->] Hc. destruct (rstrip s); [rewrite Hc|]; reflexivity.
Qed.

(** [strip] removes a run of whitespace at each end, and what is left
    neither starts nor ends with whitespace. *)
Lemma strip_spec (s : str) :
  (exists l r, s = l ++ strip s ++ r /\
     forallb isspace l = true /\ forallb isspace r = true) /\
  (forall c, head (strip s) = Some c -> isspace c = false) /\
  (forall c, last (strip s) = Some c -> isspace c = false).
Proof.
  unfold strip. split; [|split].
  - destruct (lstrip_split s) as [l [Hs Hl]].
    destruct (rstrip_split (lstrip s)) as [r [Hs' Hr]].
    exists l, r. split; [|split]; [|assumption..].
    rewrite <- Hs'. exact Hs.
  - intros c Hc. destruct (lstrip s) as [|x t] eqn:Hl; [discriminate|].
    assert (Hx : isspace x = false) by (apply (lstrip_head s); rewrite Hl; reflexivity).
    rewrite (rstrip_head (x :: t) x eq_refl Hx) in Hc. congruence.
  - apply rstrip_last.
Qed.


Lemma pure_ret {A} (a : A) : pure (ret a).
Proof. exists (Return a). reflexivity. Qed.

Lemma pure_raise {A} (e : exn) : pure (raise (A := A) e).
Proof. exists (Raise e). reflexivity. Qed.

Lemma pure_bind {A B} (c : M A) (k : A -> M B) :
  pure c -> (forall a, pure (k a)) -> pure (bind c k).
Proof.
  intros [o Ho] Hk. destruct o as [a|e].
  - destruct (Hk a) as [o' Ho']. exists o'. intros w.
    unfold bind. rewrite Ho. apply Ho'.
  - exists (Raise e). intros w. unfold bind. rewrite Ho. reflexivity.
Qed.

Lemma pure_contains key x : pure (contains key x).
Proof. destruct x; simpl; auto using @pure_ret, @pure_raise. Qed.

Lemma pure_getitem x k : pure (getitem x k).
Proof.
  destruct x, k; simpl; auto using @pure_ret, @pure_raise;
    repeat case_match; auto using @pure_ret, @pure_raise.
Qed.

Lemma pure_len x : pure (len x).
Proof. destruct x; simpl; auto using @pure_ret, @pure_raise. Qed.

Lemma pure_strip_method x : pure (strip_method x).
Proof. destruct x; simpl; auto using @pure_ret, @pure_raise. Qed.

Lemma pure_raise_for_status r : pure (raise_for_status r).
Proof.
  unfold raise_for_status. repeat case_match; auto using @pure_ret, @pure_raise.
Qed.

Lemma pure_json_method loads r : pure (json_method loads r).
Proof.
  unfold json_method. case_match; auto using @pure_ret, @pure_raise.
Qed.

Lemma pure_and_then a b : pure a -> pure b -> pure (and_then a b).
Proof.
  intros Ha Hb. apply pure_bind; [exact Ha|].
  intros []; [exact Hb|apply pure_ret].
Qed.

Create HintDb pure.
#[local] Hint Resolve pure_ret pure_raise pure_bind pure_contains pure_getitem
  pure_len pure_strip_method pure_raise_for_status pure_json_method
  pure_and_then : pure.

Section Properties.

Variable loads : list byte -> option json.

Lemma pure_extract j : pure (extract j).
Proof.
  unfold extract.
  apply pure_bind.
  - apply pure_and_then; [auto with pure|].
    apply pure_bind; [auto with pure|]. intros o.
    apply pure_bind; auto with pure.
  - intros []; [|auto with pure].
    apply pure_bind; [auto with pure|]. intros o.
    apply pure_bind; [auto with pure|]. intros e.
    apply pure_bind; auto with pure.
Qed.

Lemma pure_on_response r : pure (on_response loads r).
Proof.
  unfold on_response.
  apply pure_bind; [auto with pure|]. intros _.
  apply pure_bind; [auto with pure|]. intros j.
  apply pure_extract.
Qed.

(** One call is one [requests.post] of [posted], then [on_response] on the
    answer; a transport failure leaves as it is. *)
Lemma call_unfold {Any} (prompt : str) (stop : option (list str))
    (kwargs : gmap (list N) Any) (w : World) :
  _call loads prompt stop kwargs w =
  match network w (sent w) (posted (this w) prompt) with
  | inl r => on_response loads r (logged w (posted (this w) prompt))
  | inr e => (Raise (RequestException e), logged w (posted (this w) prompt))
  end.
Proof.
  unfold _call, bind at 1, get_self. unfold bind at 1, requests_post.
  fold (posted (this w) prompt). fold (logged w (posted (this w) prompt)).
  destruct (network w (sent w) (posted (this w) prompt)); reflexivity.
Qed.

(** The log after a call: one more entry, the request of this call. *)
Lemma call_posts {Any} (prompt : str) (stop : option (list str))
    (kwargs : gmap (list N) Any) (w : World) :
  snd (_call loads prompt stop kwargs w) = logged w (posted (this w) prompt).
Proof.
  rewrite call_unfold.
  destruct (network w (sent w) (posted (this w) prompt)) as [r|e]; [|reflexivity].
  destruct (pure_on_response r) as [o Ho]. rewrite Ho. reflexivity.
Qed.

(** A call's outcome when the endpoint answered [r]. *)
Lemma call_answered {Any} (prompt : str) (stop : option (list str))
    (kwargs : gmap (list N) Any) (w : World) r :
  network w (sent w) (posted (this w) prompt) = inl r ->
  fst (_call loads prompt stop kwargs w) = fst (on_response loads r w).
Proof.
  intros H. rewrite call_unfold, H.
  destruct (pure_on_response r) as [o Ho]. rewrite !Ho. reflexivity.
Qed.

End Properties.



(** ** The status check *)

Lemma raise_for_status_pass (r : Response) :
  status_code r < 400 \/ 600 <= status_code r -> raise_for_status r = ret tt.
Proof.
  intros H. unfold raise_for_status.
  destruct (400 <=? status_code r) eqn:H4, (status_code r <? 500) eqn:H5,
    (500 <=? status_code r) eqn:H6, (status_code r <? 600) eqn:H7;
    simpl; try reflexivity; lia.
Qed.

Lemma raise_for_status_fail (r : Response) :
  400 <= status_code r < 600 -> raise_for_status r = raise (HTTPError r).
Proof.
  intros H. unfold raise_for_status.
  destruct (400 <=? status_code r) eqn:H4, (status_code r <? 500) eqn:H5,
    (500 <=? status_code r) eqn:H6, (status_code r <? 600) eqn:H7;
    simpl; try reflexivity; lia.
Qed.

(** ** From the decoded document to the result *)

Section Extract.

Variable loads : list byte -> option json.

Lemma on_response_decoded (r : Response) (j : json) (w : World) :
  status_code r < 400 \/ 600 <= status_code r ->
  loads (content r) = Some j ->
  on_response loads r w = extract j w.
Proof.
  intros Hs Hj. unfold on_response, json_method.
  rewrite (raise_for_status_pass r Hs), Hj. reflexivity.
Qed.

Lemma on_response_undecoded (r : Response) (w : World) :
  status_code r < 400 \/ 600 <= status_code r ->
  loads (content r) = None ->
  on_response loads r w = (Raise JSONDecodeError, w).
Proof.
  intros Hs Hj. unfold on_response, json_method.
  rewrite (raise_for_status_pass r Hs), Hj. reflexivity.
Qed.

Lemma on_response_error (r : Response) (w : World) :
  400 <= status_code r < 600 ->
  on_response loads r w = (Raise (HTTPError r), w).
Proof.
  intros Hs. unfold on_response.
  rewrite (raise_for_status_fail r Hs). reflexivity.
Qed.

End Extract.

Lemma extract_absent (m : gmap (list N) json) (w : World) :
  m !! py "outputs" = None ->
  extract (JObject m) w = (Return (py "No text generated."), w).
Proof.
  intros H. unfold extract, and_then, contains, bind, ret.
  rewrite H. rewrite bool_decide_eq_false_2 by (intros [? ?]; discriminate).
  reflexivity.
Qed.

Lemma extract_len (m : gmap (list N) json) (o : json) (n : Z) (w : World) :
  m !! py "outputs" = Some o ->
  len o = ret n ->
  extract (JObject m) w =
  if 0 <? n then
    (e <- getitem o (KInt 0) ;; t <- getitem e (KStr (py "text")) ;;
     strip_method t) w
  else (Return (py "No text generated."), w).
Proof.
  intros H Hn. unfold extract, and_then, contains, getitem, bind.
  rewrite H. rewrite bool_decide_eq_true_2 by eauto.
  cbv beta iota delta [ret]. rewrite Hn.
  cbv beta iota delta [ret]. destruct (0 <? n); reflexivity.
Qed.

Lemma extract_empty (m : gmap (list N) json) (o : json) (w : World) :
  m !! py "outputs" = Some o ->
  o = JArray [] \/ o = JString [] \/ o = JObject ∅ ->
  extract (JObject m) w = (Return (py "No text generated."), w).
Proof.
  intros H Ho. rewrite (extract_len m o 0 w H); [reflexivity|].
  destruct Ho as [->|[->| ->]]; reflexivity.
Qed.

Lemma extract_first (m : gmap (list N) json) (e : json) (rest : list json)
    (w : World) :
  m !! py "outputs" = Some (JArray (e :: rest)) ->
  extract (JObject m) w =
  (t <- getitem e (KStr (py "text")) ;; strip_method t) w.
Proof.
  intros H.
  rewrite (extract_len m _ (Z.of_nat (length (e :: rest))) w H) by reflexivity.
  replace (0 <? Z.of_nat (length (e :: rest))) with true
    by (symmetry; apply Z.ltb_lt; simpl; lia).
  reflexivity.
Qed.

(** ** The adapter's contract *)

Section Contract.

Variable loads : list byte -> option json.
Context {Any : Type}.
Implicit Types (prompt : str) (stop : option (list str))
  (kwargs : gmap (list N) Any) (w : World) (r : Response)
  (m f : gmap (list N) json).

(** C1, amended. For every 2xx response whose body decodes to an object
    whose [outputs] is a non-empty list with, at index 0, an object whose
    [text] field holds a str, [_call] returns that str with its leading and
    trailing whitespace removed: the text is whitespace, then the result,
    then whitespace, and the result neither starts nor ends with
    whitespace. *)
Theorem C1_returns_stripped_text prompt stop kwargs w r m f rest (t : str) :
  network w (sent w) (posted (this w) prompt) = inl r ->
  200 <= status_code r < 300 ->
  loads (content r) = Some (JObject m) ->
  m !! py "outputs" = Some (JArray (JObject f :: rest)) ->
  f !! py "text" = Some (JString t) ->
  fst (_call loads prompt stop kwargs w) = Return (strip t) /\
  (exists a b, t = a ++ strip t ++ b /\
     forallb isspace a = true /\ forallb isspace b = true) /\
  (forall c, head (strip t) = Some c -> isspace c = false) /\
  (forall c, last (strip t) = Some c -> isspace c = false).
Proof.
  intros Hnet Hs Hj Ho Ht. split; [|apply strip_spec].
  rewrite (call_answered loads prompt stop kwargs w r Hnet).
  rewrite (on_response_decoded loads r (JObject m) w) by (assumption || lia).
  rewrite (extract_first m _ rest w Ho).
  unfold bind, getitem. rewrite Ht. reflexivity.
Qed.

(** C2, amended. For every 2xx response whose body decodes to an object,
    [_call] returns the fallback string, raising nothing, when [outputs] is
    absent or an empty sequence (list or str); when [outputs] is a
    non-empty list whose element 0 is an object without a [text] field, it
    raises [KeyError] for that key. *)
Theorem C2_fallback_or_key_error prompt stop kwargs w r m :
  network w (sent w) (posted (this w) prompt) = inl r ->
  200 <= status_code r < 300 ->
  loads (content r) = Some (JObject m) ->
  (m !! py "outputs" = None \/ m !! py "outputs" = Some (JArray []) \/
   m !! py "outputs" = Some (JString []) ->
   fst (_call loads prompt stop kwargs w) = Return (py "No text generated.")) /\
  (forall f rest,
   m !! py "outputs" = Some (JArray (JObject f :: rest)) ->
   f !! py "text" = None ->
   fst (_call loads prompt stop kwargs w) = Raise (KeyError (KStr (py "text")))).
Proof.
  intros Hnet Hs Hj.
  rewrite (call_answered loads prompt stop kwargs w r Hnet).
  rewrite (on_response_decoded loads r (JObject m) w) by (assumption || lia).
  split.
  - intros [Ho|[Ho|Ho]].
    + rewrite (extract_absent m w Ho). reflexivity.
    + rewrite (extract_empty m _ w Ho) by auto. reflexivity.
    + rewrite (extract_empty m _ w Ho) by auto. reflexivity.
  - intros f rest Ho Ht. rewrite (extract_first m _ rest w Ho).
    unfold bind, getitem. rewrite Ht. reflexivity.
Qed.

(** C3, amended. For every response whose status is a client or server
    error (400 to 599), [_call] raises an [HTTPError] that carries the
    response, status code and body, after its one POST: nothing is retried
    and no string, so no fallback string, is returned. *)
Theorem C3_http_error_raised prompt stop kwargs w r :
  network w (sent w) (posted (this w) prompt) = inl r ->
  400 <= status_code r < 600 ->
  _call loads prompt stop kwargs w
  = (Raise (HTTPError r), logged w (posted (this w) prompt)) /\
  sent (snd (_call loads prompt stop kwargs w))
  = sent w ++ [posted (this w) prompt].
Proof.
  intros Hnet Hs. rewrite call_posts. split; [|reflexivity].
  rewrite call_unfold, Hnet. apply on_response_error. exact Hs.
Qed.

(** C4. For every 2xx response whose decoded object has no [outputs] key,
    or has [outputs] equal to an empty sequence (list or str), [_call]
    returns exactly ["No text generated."]. *)
Theorem C4_no_outputs_fallback prompt stop kwargs w r m :
  network w (sent w) (posted (this w) prompt) = inl r ->
  200 <= status_code r < 300 ->
  loads (content r) = Some (JObject m) ->
  m !! py "outputs" = None \/ m !! py "outputs" = Some (JArray []) \/
  m !! py "outputs" = Some (JString []) ->
  fst (_call loads prompt stop kwargs w) = Return (py "No text generated.").
Proof.
  intros Hnet Hs Hj Ho.
  rewrite (call_answered loads prompt stop kwargs w r Hnet).
  rewrite (on_response_decoded loads r (JObject m) w) by (assumption || lia).
  destruct Ho as [Ho|[Ho|Ho]].
  - rewrite (extract_absent m w Ho). reflexivity.
  - rewrite (extract_empty m _ w Ho) by auto. reflexivity.
  - rewrite (extract_empty m _ w Ho) by auto. reflexivity.
Qed.

(** C5. For every prompt, stop list and extra keyword arguments, the call
    posts one request whose JSON body is exactly the object with the single
    key [prompt] bound to the prompt: [prompt] is its only key, so neither
    [stop] nor [temperature] nor the name of an extra argument is in it. *)
Theorem C5_body_is_prompt_only prompt stop kwargs w :
  exists req,
    sent (snd (_call loads prompt stop kwargs w)) = sent w ++ [req] /\
    json_payload req = {[ py "prompt" := JString prompt ]} /\
    dom (json_payload req) = {[ py "prompt" ]} /\
    json_payload req !! py "stop" = None /\
    json_payload req !! py "temperature" = None.
Proof.
  exists (posted (this w) prompt). rewrite call_posts. simpl.
  split; [reflexivity|]. split; [reflexivity|]. split; [|split].
  - apply dom_singleton_L.
  - apply lookup_singleton_ne. vm_compute. discriminate.
  - apply lookup_singleton_ne. vm_compute. discriminate.
Qed.

(** C6. For every 2xx response whose body is not a JSON document, [_call]
    raises the decoder's error as it is, after its one POST; no string, so
    no fallback string, is returned. *)
Theorem C6_parse_error_raised prompt stop kwargs w r :
  network w (sent w) (posted (this w) prompt) = inl r ->
  200 <= status_code r < 300 ->
  loads (content r) = None ->
  _call loads prompt stop kwargs w
  = (Raise JSONDecodeError, logged w (posted (this w) prompt)).
Proof.
  intros Hnet Hs Hj. rewrite call_unfold, Hnet.
  apply on_response_undecoded; [lia|exact Hj].
Qed.

(** C7. Every call posts one request, to the adapter's endpoint, whose
    headers are exactly [Authorization: Bearer <auth_token>] and
    [Content-Type: application/json], and with certificate verification
    turned off ([verify=False]). *)
Theorem C7_headers_and_no_verify prompt stop kwargs w :
  exists req,
    sent (snd (_call loads prompt stop kwargs w)) = sent w ++ [req] /\
    url req = endpoint (this w) /\
    headers req = {[ py "Authorization" := py "Bearer " ++ auth_token (this w);
                     py "Content-Type" := py "application/json" ]} /\
    dom (headers req) = {[ py "Authorization"; py "Content-Type" ]} /\
    verify req = false.
Proof.
  exists (posted (this w) prompt). rewrite call_posts. simpl.
  split; [reflexivity|]. split; [reflexivity|]. split; [reflexivity|].
  split; [|reflexivity].
  rewrite dom_insert_L, dom_singleton_L. reflexivity.
Qed.

(** C10. The test on [outputs] is a length check: for every 2xx response
    whose decoded object has [outputs] bound to an empty list, an empty
    str or an empty object, [_call] returns the fallback string. *)
Theorem C10_empty_sized_fallback prompt stop kwargs w r m (o : json) :
  network w (sent w) (posted (this w) prompt) = inl r ->
  200 <= status_code r < 300 ->
  loads (content r) = Some (JObject m) ->
  m !! py "outputs" = Some o ->
  o = JArray [] \/ o = JString [] \/ o = JObject ∅ ->
  fst (_call loads prompt stop kwargs w) = Return (py "No text generated.").
Proof.
  intros Hnet Hs Hj Ho He.
  rewrite (call_answered loads prompt stop kwargs w r Hnet).
  rewrite (on_response_decoded loads r (JObject m) w) by (assumption || lia).
  rewrite (extract_empty m o w Ho He). reflexivity.
Qed.

End Contract.

(** The adapter object is the same after any number of calls. *)
Lemma run_calls_this (loads : list byte -> option json) (cs : list Invocation) (w : World) :
  this (run_calls loads cs w) = this w.
Proof.
  revert w. induction cs as [|c cs IH]; intros w; simpl; [reflexivity|].
  rewrite IH, call_posts. reflexivity.
Qed.

(** Each call adds one request to the log. *)
Lemma run_calls_sent (loads : list byte -> option json) (cs : list Invocation) (w : World) :
  length (sent (run_calls loads cs w)) = (length (sent w) + length cs)%nat.
Proof.
  revert w. induction cs as [|c cs IH]; intros w; simpl; [lia|].
  rewrite IH, call_posts. simpl. rewrite length_app. simpl. lia.
Qed.

(** C8. For an adapter constructed with an endpoint, a token and a
    temperature (or the default one), and after any number of calls of
    [_call], whatever they returned or raised, [_identifying_params]
    returns the mapping with exactly the keys [endpoint] and [temperature],
    bound to the constructed values; the token is not in it; the accessor
    leaves the world, adapter and log, as it found it, and the calls before
    it left the adapter as constructed. *)
Theorem C8_identifying_params (loads : list byte -> option json)
    (e a : str) (t : option float)
    (net : list Request -> Request -> Response + TransportError)
    (log : list Request) (cs : list Invocation) :
  let w := run_calls loads cs
             {| this := new e a t; network := net; sent := log |} in
  let ps : gmap (list N) param :=
    {[ py "endpoint" := PStr e;
       py "temperature" := PFloat (default default_temperature t) ]} in
  _identifying_params w = (Return ps, w) /\
  dom ps = {[ py "endpoint"; py "temperature" ]} /\
  ps !! py "auth_token" = None /\
  this w = new e a t.
Proof.
  intros w ps.
  assert (Hthis : this w = new e a t) by apply run_calls_this.
  split; [|split; [|split]].
  - unfold _identifying_params, bind, get_self, ret. rewrite Hthis.
    destruct t; reflexivity.
  - unfold ps. rewrite dom_insert_L, dom_singleton_L. reflexivity.
  - unfold ps. rewrite lookup_insert_ne by (vm_compute; discriminate).
    apply lookup_singleton_ne. vm_compute. discriminate.
  - exact Hthis.
Qed.

(** C9. The outcome of a call is a function of the response alone: two
    calls that receive the same response return the same string (or raise
    the same exception), whatever their prompts, stop lists, extra keyword
    arguments, adapters and logs. *)
Theorem C9_outcome_depends_on_response_only
    (loads : list byte -> option json) {Any1 Any2 : Type}
    (prompt1 prompt2 : str) (stop1 stop2 : option (list str))
    (kwargs1 : gmap (list N) Any1) (kwargs2 : gmap (list N) Any2)
    (w1 w2 : World) (r : Response) :
  network w1 (sent w1) (posted (this w1) prompt1) = inl r ->
  network w2 (sent w2) (posted (this w2) prompt2) = inl r ->
  fst (_call loads prompt1 stop1 kwargs1 w1)
  = fst (_call loads prompt2 stop2 kwargs2 w2).
Proof.
  intros H1 H2.
  rewrite (call_answered loads prompt1 stop1 kwargs1 w1 r H1).
  rewrite (call_answered loads prompt2 stop2 kwargs2 w2 r H2).
  destruct (pure_on_response loads r) as [o Ho]. rewrite !Ho. reflexivity.
Qed.

(** ** The contract at concrete responses *)

(** The response of the first testable property: the text comes back
    without the spaces around it. *)
Lemma C1_returns_stripped_text_witness :
  let r := Example.ok "{'outputs':[{'text':'  hello world  '}]}" in
  let w := Example.mock r in
  200 <= status_code r < 300 /\
  fst (_call Example.loads (py "hi") None (∅ : gmap (list N) json) w)
  = Return (py "hello world").
Proof.
  intros r w. split; [simpl; lia|].
  apply (C1_returns_stripped_text Example.loads (py "hi") None ∅ w r
           {[ py "outputs" :=
                JArray [JObject {[ py "text" := JString (py "  hello world  ") ]}] ]}
           {[ py "text" := JString (py "  hello world  ") ]} []
           (py "  hello world  ")).
  - reflexivity.
  - simpl. lia.
  - vm_compute. reflexivity.
  - vm_compute. reflexivity.
  - vm_compute. reflexivity.
Defined.

(** C1 as stated fails where the [text] field holds something that is not a
    str: JSON [null] has no [strip], and the call raises. *)
Lemma C1_text_null_raises :
  let r := Example.ok "{'outputs':[{'text':null}]}" in
  let w := Example.mock r in
  200 <= status_code r < 300 /\
  Example.loads (content r)
  = Some (JObject {[ py "outputs" := JArray [JObject {[ py "text" := JNull ]}] ]}) /\
  fst (_call Example.loads (py "hi") None (∅ : gmap (list N) json) w)
  = Raise AttributeError.
Proof.
  intros r w. split; [simpl; lia|]. split; vm_compute; reflexivity.
Qed.

(** An empty [outputs] list gives the fallback string. *)
Lemma C2_fallback_or_key_error_witness :
  let r := Example.ok "{'outputs':[]}" in
  let w := Example.mock r in
  200 <= status_code r < 300 /\
  fst (_call Example.loads (py "hi") None (∅ : gmap (list N) json) w)
  = Return (py "No text generated.").
Proof.
  intros r w. split; [simpl; lia|].
  apply (C2_fallback_or_key_error Example.loads (py "hi") None ∅ w r
           {[ py "outputs" := JArray [] ]}).
  - reflexivity.
  - simpl. lia.
  - vm_compute. reflexivity.
  - right. left. vm_compute. reflexivity.
Defined.

(** C2 as stated fails at the malformed shape it names: a non-empty
    [outputs] whose element 0 has no [text] field. The body is JSON, the
    status is 200, and the call raises [KeyError] where the claim has it
    return the fallback string. *)
Lemma C2_missing_text_raises :
  let r := Example.ok "{'outputs':[{}]}" in
  let w := Example.mock r in
  200 <= status_code r < 300 /\
  Example.loads (content r)
  = Some (JObject {[ py "outputs" := JArray [JObject ∅] ]}) /\
  fst (_call Example.loads (py "hi") None (∅ : gmap (list N) json) w)
  = Raise (KeyError (KStr (py "text"))) /\
  fst (_call Example.loads (py "hi") None (∅ : gmap (list N) json) w)
  <> Return (py "No text generated.").
Proof.
  intros r w. split; [simpl; lia|].
  split; [vm_compute; reflexivity|].
  assert (H : fst (_call Example.loads (py "hi") None
                     (∅ : gmap (list N) json) w)
              = Raise (KeyError (KStr (py "text"))))
    by (vm_compute; reflexivity).
  split; [exact H|]. rewrite H. discriminate.
Qed.

(** A server error: the [HTTPError] carries the response, and the log
    holds the one request. *)
Lemma C3_http_error_raised_witness :
  let r := {| status_code := 500;
              content := Example.body "Internal Server Error" |} in
  let w := Example.mock r in
  fst (_call Example.loads (py "hi") None (∅ : gmap (list N) json) w)
  = Raise (HTTPError r) /\
  length (sent (snd (_call Example.loads (py "hi") None
                       (∅ : gmap (list N) json) w))) = 1%nat.
Proof.
  intros r w.
  destruct (C3_http_error_raised Example.loads (py "hi") None
              (∅ : gmap (list N) json) w r) as [Hcall Hsent].
  - reflexivity.
  - simpl. lia.
  - rewrite Hsent, Hcall. split; reflexivity.
Defined.

(** C3 as stated fails at a status that is neither 2xx nor an error for
    [raise_for_status]: with 300 and a JSON body the call raises nothing
    and returns the fallback string. *)
Lemma C3_status_300_returns_fallback :
  let r := {| status_code := 300; content := Example.body "{}" |} in
  let w := Example.mock r in
  ~ (200 <= status_code r < 300) /\
  fst (_call Example.loads (py "hi") None (∅ : gmap (list N) json) w)
  = Return (py "No text generated.").
Proof.
  intros r w. split; [simpl; lia|]. vm_compute. reflexivity.
Qed.

(** The third testable property: no [outputs] key. *)
Lemma C4_no_outputs_fallback_witness :
  let r := Example.ok "{}" in
  let w := Example.mock r in
  200 <= status_code r < 300 /\
  fst (_call Example.loads (py "hi") None (∅ : gmap (list N) json) w)
  = Return (py "No text generated.").
Proof.
  intros r w. split; [simpl; lia|].
  apply (C4_no_outputs_fallback Example.loads (py "hi") None ∅ w r ∅).
  - reflexivity.
  - simpl. lia.
  - vm_compute. reflexivity.
  - left. vm_compute. reflexivity.
Defined.

(** The fifth testable property: a body that is not JSON, with status 200. *)
Lemma C6_parse_error_raised_witness :
  let r := Example.ok "<html>Bad gateway</html>" in
  let w := Example.mock r in
  200 <= status_code r < 300 /\
  Example.loads (content r) = None /\
  fst (_call Example.loads (py "hi") None (∅ : gmap (list N) json) w)
  = Raise JSONDecodeError.
Proof.
  intros r w. split; [simpl; lia|]. split; [vm_compute; reflexivity|].
  rewrite (C6_parse_error_raised Example.loads (py "hi") None
             (∅ : gmap (list N) json) w r).
  - reflexivity.
  - reflexivity.
  - simpl. lia.
  - vm_compute. reflexivity.
Defined.

(** Two calls with different prompts, stop lists and extra arguments, and
    the same response. *)
Lemma C9_outcome_depends_on_response_only_witness :
  let r := Example.ok "{'outputs':[{'text':' same '}]}" in
  let w := Example.mock r in
  fst (_call Example.loads (py "hi") None (∅ : gmap (list N) json) w)
  = fst (_call Example.loads (py "bye") (Some [py "."])
           ({[ py "max_tokens" := 5 ]} : gmap (list N) Z) w).
Proof.
  intros r w.
  apply (C9_outcome_depends_on_response_only Example.loads
           (py "hi") (py "bye") None (Some [py "."]) ∅ {[ py "max_tokens" := 5 ]}
           w w r); reflexivity.
Defined.

(** [outputs] bound to an empty str. *)
Lemma C10_empty_sized_fallback_witness :
  let r := Example.ok "{'outputs':''}" in
  let w := Example.mock r in
  200 <= status_code r < 300 /\
  fst (_call Example.loads (py "hi") None (∅ : gmap (list N) json) w)
  = Return (py "No text generated.").
Proof.
  intros r w. split; [simpl; lia|].
  apply (C10_empty_sized_fallback Example.loads (py "hi") None ∅ w r
           {[ py "outputs" := JString [] ]} (JString [])).
  - reflexivity.
  - simpl. lia.
  - vm_compute. reflexivity.
  - vm_compute. reflexivity.
  - right. left. reflexivity.
Defined.

(** * Further properties of the adapter *)

(** ** More on [str.strip] and on substring search *)

Lemma lstrip_id (s : str) :
  (forall c, head s = Some c -> isspace c = false) -> lstrip s = s.
Proof.
  destruct s as [|x s]; simpl; [reflexivity|].
  intros H. rewrite (H x eq_refl). reflexivity.
Qed.

Lemma rstrip_id (s : str) :
  (forall c, last s = Some c -> isspace c = false) -> rstrip s = s.
Proof.
  induction s as [|x s IH]; simpl; [reflexivity|].
  intros H. destruct s as [|y s'].
  - simpl. rewrite (H x eq_refl). reflexivity.
  - rewrite IH by (intros c Hc; apply H; exact Hc). reflexivity.
Qed.

Lemma strip_id (s : str) :
  (forall c, head s = Some c -> isspace c = false) ->
  (forall c, last s = Some c -> isspace c = false) ->
  strip s = s.
Proof.
  intros Hh Hl. unfold strip. rewrite (lstrip_id s Hh). apply rstrip_id, Hl.
Qed.

Lemma strip_idempotent (s : str) : strip (strip s) = strip s.
Proof. apply strip_id; apply strip_spec. Qed.

Lemma lstrip_blank (s : str) : forallb isspace s = true -> lstrip s = [].
Proof.
  induction s as [|x s IH]; simpl; [reflexivity|].
  intros H. apply andb_prop in H as [Hx Hs]. rewrite Hx. apply IH, Hs.
Qed.

Lemma strip_blank (s : str) : forallb isspace s = true -> strip s = [].
Proof. intros H. unfold strip. rewrite (lstrip_blank s H). reflexivity. Qed.

Lemma startswith_spec (a b : str) :
  startswith a b = true <-> exists r, a = b ++ r.
Proof.
  revert a. induction b as [|y b IH]; intros [|x a]; cbn [startswith app].
  - split; eauto.
  - split; eauto.
  - split; [discriminate|]. intros [r Hr]. discriminate.
  - rewrite andb_true_iff, IH, N.eqb_eq. split.
    + intros [-> [r ->]]. eauto.
    + intros [r [= -> ->]]. eauto.
Qed.

(** The model of [b in a] on two strings finds exactly the substrings. *)
Lemma str_contains_spec (a b : str) :
  str_contains a b = true <-> exists l r, a = l ++ b ++ r.
Proof.
  induction a as [|x a IH]; cbn [str_contains].
  - rewrite orb_false_r, startswith_spec. split.
    + intros [r Hr]. exists [], r. exact Hr.
    + intros [l [r Hr]]. destruct l; [eauto|discriminate].
  - rewrite orb_true_iff, startswith_spec, IH. split.
    + intros [[r Hr]|[l [r Hr]]].
      * exists [], r. exact Hr.
      * exists (x :: l), r. simpl. congruence.
    + intros [l [r Hr]]. destruct l as [|y l]; simpl in Hr.
      * left. eauto.
      * right. injection Hr as -> ->. eauto.
Qed.

(** Element membership of the str ["outputs"] in a decoded list. *)
Lemma list_contains_spec (key : str) (l : list json) :
  existsb (fun e => match e with
                    | JString s => bool_decide (s = key)
                    | _ => false
                    end) l = true
  <-> In (JString key) l.
Proof.
  rewrite existsb_exists. split.
  - intros [e [He Hb]]. destruct e; try discriminate.
    apply bool_decide_eq_true_1 in Hb. subst. exact He.
  - intros H. exists (JString key). split; [exact H|].
    apply bool_decide_eq_true_2. reflexivity.
Qed.

(** ** Every shape of decoded document *)

Lemma extract_scalar (j : json) (w : World) :
  match j with JNull | JBool _ | JInt _ | JFloat _ => True | _ => False end ->
  extract j w = (Raise TypeError, w).
Proof. destruct j; intros []; reflexivity. Qed.

Lemma extract_list (l : list json) (w : World) :
  extract (JArray l) w =
  if existsb (fun e => match e with
                       | JString s => bool_decide (s = py "outputs")
                       | _ => false
                       end) l
  then (Raise TypeError, w)
  else (Return (py "No text generated."), w).
Proof.
  unfold extract, and_then, contains, bind, ret.
  destruct (existsb _ l); reflexivity.
Qed.

Lemma extract_str (s : str) (w : World) :
  extract (JString s) w =
  if str_contains s (py "outputs")
  then (Raise TypeError, w)
  else (Return (py "No text generated."), w).
Proof.
  unfold extract, and_then, contains, bind, ret.
  destruct (str_contains s (py "outputs")); reflexivity.
Qed.

Lemma extract_len_raises (m : gmap (list N) json) (o : json) (e : exn)
    (w : World) :
  m !! py "outputs" = Some o ->
  len o = raise e ->
  extract (JObject m) w = (Raise e, w).
Proof.
  intros H He. unfold extract, and_then, contains, getitem, bind.
  rewrite H. rewrite bool_decide_eq_true_2 by eauto.
  cbv beta iota delta [ret]. rewrite He. reflexivity.
Qed.

Lemma extract_outputs_scalar (m : gmap (list N) json) (o : json) (w : World) :
  m !! py "outputs" = Some o ->
  match o with JNull | JBool _ | JInt _ | JFloat _ => True | _ => False end ->
  extract (JObject m) w = (Raise TypeError, w).
Proof.
  intros H Ho. apply (extract_len_raises m o TypeError w H).
  destruct o; destruct Ho; reflexivity.
Qed.

Lemma extract_outputs_str (m : gmap (list N) json) (c : N) (s : str)
    (w : World) :
  m !! py "outputs" = Some (JString (c :: s)) ->
  extract (JObject m) w = (Raise TypeError, w).
Proof.
  intros H.
  rewrite (extract_len m _ (Z.of_nat (length (c :: s))) w H) by reflexivity.
  replace (0 <? Z.of_nat (length (c :: s))) with true
    by (symmetry; apply Z.ltb_lt; simpl; lia).
  reflexivity.
Qed.

Lemma extract_outputs_dict (m m' : gmap (list N) json) (w : World) :
  m !! py "outputs" = Some (JObject m') ->
  m' <> ∅ ->
  extract (JObject m) w = (Raise (KeyError (KInt 0)), w).
Proof.
  intros H Hne.
  rewrite (extract_len m _ (Z.of_nat (size m')) w H) by reflexivity.
  replace (0 <? Z.of_nat (size m')) with true; [reflexivity|].
  symmetry. apply Z.ltb_lt.
  assert (size m' <> 0%nat) by (intros Hz; apply Hne, map_size_empty_inv, Hz).
  lia.
Qed.

Lemma extract_of_element (m : gmap (list N) json) (e : json)
    (rest : list json) (w : World) :
  m !! py "outputs" = Some (JArray (e :: rest)) ->
  extract (JObject m) w = (of_element e, w).
Proof.
  intros H. rewrite (extract_first m e rest w H).
  unfold bind, getitem, of_element.
  destruct e; try reflexivity.
  destruct (m0 !! py "text") as [t|]; [|reflexivity].
  destruct t; reflexivity.
Qed.

Lemma extract_outcome (j : json) (w : World) :
  extract_result (fst (extract j w)).
Proof.
  assert (Hfb : strip (py "No text generated.") = py "No text generated.")
    by (vm_compute; reflexivity).
  destruct j as [| | | |s|l|m];
    try (rewrite extract_scalar by exact I; simpl; auto).
  - rewrite extract_str. destruct (str_contains _ _); simpl; auto.
  - rewrite extract_list. destruct (existsb _ _); simpl; auto.
  - destruct (m !! py "outputs") as [o|] eqn:Ho.
    2: { rewrite (extract_absent m w Ho). exact Hfb. }
    destruct o as [| | | |s|l|m'];
      try (rewrite (extract_outputs_scalar m _ w Ho) by exact I; simpl; auto).
    + destruct s as [|c s].
      * rewrite (extract_empty m _ w Ho) by auto. exact Hfb.
      * rewrite (extract_outputs_str m c s w Ho). simpl. auto.
    + destruct l as [|e rest].
      * rewrite (extract_empty m _ w Ho) by auto. exact Hfb.
      * rewrite (extract_of_element m e rest w Ho). simpl.
        unfold of_element. destruct e; simpl; auto.
        destruct (m0 !! py "text") as [t|]; simpl; eauto.
        destruct t; simpl; auto. apply strip_idempotent.
    + destruct (decide (m' = ∅)) as [->|Hne].
      * rewrite (extract_empty m _ w Ho) by auto. exact Hfb.
      * rewrite (extract_outputs_dict m m' w Ho Hne). simpl. eauto.
Qed.

(** ** One call, case by case *)

Section Cases.

Variable loads : list byte -> option json.
Context {Any : Type}.
Implicit Types (prompt : str) (stop : option (list str))
  (kwargs : gmap (list N) Any) (w : World) (r : Response)
  (m f : gmap (list N) json).

(** A call whose response passed the status check and was decoded. *)
Lemma call_decoded prompt stop kwargs w r (j : json) :
  network w (sent w) (posted (this w) prompt) = inl r ->
  status_code r < 400 \/ 600 <= status_code r ->
  loads (content r) = Some j ->
  fst (_call loads prompt stop kwargs w) = fst (extract j w).
Proof.
  intros Hnet Hs Hj. rewrite (call_answered loads prompt stop kwargs w r Hnet).
  rewrite (on_response_decoded loads r j w Hs Hj). reflexivity.
Qed.

(** The four ways a call can go. *)
Lemma call_cases prompt stop kwargs w :
  let o := fst (_call loads prompt stop kwargs w) in
  let answer := network w (sent w) (posted (this w) prompt) in
  (exists e, answer = inr e /\ o = Raise (RequestException e)) \/
  (exists r, answer = inl r /\ 400 <= status_code r < 600 /\
             o = Raise (HTTPError r)) \/
  (exists r, answer = inl r /\ (status_code r < 400 \/ 600 <= status_code r) /\
             loads (content r) = None /\ o = Raise JSONDecodeError) \/
  (exists r j, answer = inl r /\
               (status_code r < 400 \/ 600 <= status_code r) /\
               loads (content r) = Some j /\ o = fst (extract j w)).
Proof.
  intros o answer. subst o.
  destruct (network w (sent w) (posted (this w) prompt)) as [r|e] eqn:Hnet;
    subst answer.
  - destruct (decide (400 <= status_code r < 600)) as [Hs|Hs].
    + right. left. exists r. split; [reflexivity|]. split; [exact Hs|].
      rewrite (call_answered loads prompt stop kwargs w r Hnet).
      rewrite (on_response_error loads r w Hs). reflexivity.
    + assert (Hs' : status_code r < 400 \/ 600 <= status_code r) by lia.
      destruct (loads (content r)) as [j|] eqn:Hj.
      * do 3 right. exists r, j. repeat split; try assumption.
        apply (call_decoded prompt stop kwargs w r j Hnet Hs' Hj).
      * right. right. left. exists r. repeat split; try assumption.
        rewrite (call_answered loads prompt stop kwargs w r Hnet).
        rewrite (on_response_undecoded loads r w Hs' Hj). reflexivity.
  - left. exists e. split; [reflexivity|].
    rewrite call_unfold, Hnet. reflexivity.
Qed.

(** X1. When [requests.post] itself fails, the call raises that failure as
    it is, after logging the one attempt: the status check and the decoder
    are never reached. *)
Theorem X1_transport_error_propagates prompt stop kwargs w
    (e : TransportError) :
  network w (sent w) (posted (this w) prompt) = inr e ->
  _call loads prompt stop kwargs w
  = (Raise (RequestException e), logged w (posted (this w) prompt)).
Proof. intros Hnet. rewrite call_unfold, Hnet. reflexivity. Qed.

(** X2. An [HTTPError] leaves a call only for a response with a status
    from 400 to 599, and it carries the very response the endpoint gave. *)
Theorem X2_http_error_only_for_error_status prompt stop kwargs w
    (r' : Response) :
  fst (_call loads prompt stop kwargs w) = Raise (HTTPError r') ->
  network w (sent w) (posted (this w) prompt) = inl r' /\
  400 <= status_code r' < 600.
Proof.
  intros H.
  destruct (call_cases prompt stop kwargs w)
    as [[e [_ Ho]]|[[r [Hnet [Hs Ho]]]|[[r [_ [_ [_ Ho]]]]|[r [j [_ [_ [_ Ho]]]]]]]];
    rewrite Ho in H.
  - discriminate.
  - injection H as <-. split; assumption.
  - discriminate.
  - pose proof (extract_outcome j w) as Hx. rewrite H in Hx. simpl in Hx.
    destruct Hx as [Hx|[[k Hx]|Hx]]; discriminate.
Qed.

(** X3. No call raises [IndexError]: element 0 is read only after the
    length test, and an empty [outputs] takes the fallback branch. *)
Theorem X3_never_index_error prompt stop kwargs w :
  fst (_call loads prompt stop kwargs w) <> Raise IndexError.
Proof.
  intros H.
  destruct (call_cases prompt stop kwargs w)
    as [[e [_ Ho]]|[[r [_ [_ Ho]]]|[[r [_ [_ [_ Ho]]]]|[r [j [_ [_ [_ Ho]]]]]]]];
    rewrite Ho in H; try discriminate.
  pose proof (extract_outcome j w) as Hx. rewrite H in Hx. simpl in Hx.
  destruct Hx as [Hx|[[k Hx]|Hx]]; discriminate.
Qed.

(** X4. Whatever string a call returns, the stripped text or the fallback,
    has no whitespace at its start or at its end. *)
Theorem X4_returned_string_unpadded prompt stop kwargs w (s : str) :
  fst (_call loads prompt stop kwargs w) = Return s ->
  strip s = s /\
  (forall c, head s = Some c -> isspace c = false) /\
  (forall c, last s = Some c -> isspace c = false).
Proof.
  intros H.
  assert (Hs : strip s = s).
  { destruct (call_cases prompt stop kwargs w)
      as [[e [_ Ho]]|[[r [_ [_ Ho]]]|[[r [_ [_ [_ Ho]]]]|[r [j [_ [_ [_ Ho]]]]]]]];
      rewrite Ho in H; try discriminate.
    pose proof (extract_outcome j w) as Hx. rewrite H in Hx. exact Hx. }
  split; [exact Hs|]. rewrite <- Hs. apply strip_spec.
Qed.

(** X5. A body that decodes to [null], a boolean or a number makes the call
    raise [TypeError]: the membership test on line 33 needs a container. *)
Theorem X5_scalar_document_type_error prompt stop kwargs w r (j : json) :
  network w (sent w) (posted (this w) prompt) = inl r ->
  status_code r < 400 \/ 600 <= status_code r ->
  loads (content r) = Some j ->
  match j with JNull | JBool _ | JInt _ | JFloat _ => True | _ => False end ->
  fst (_call loads prompt stop kwargs w) = Raise TypeError.
Proof.
  intros Hnet Hs Hj Hscalar.
  rewrite (call_decoded prompt stop kwargs w r j Hnet Hs Hj).
  rewrite (extract_scalar j w Hscalar). reflexivity.
Qed.

(** X6. A body that decodes to a list gives the fallback string unless the
    str ["outputs"] is one of its elements; then the subscript by a str on
    the same line raises [TypeError]. *)
Theorem X6_list_document prompt stop kwargs w r (l : list json) :
  network w (sent w) (posted (this w) prompt) = inl r ->
  status_code r < 400 \/ 600 <= status_code r ->
  loads (content r) = Some (JArray l) ->
  (In (JString (py "outputs")) l ->
   fst (_call loads prompt stop kwargs w) = Raise TypeError) /\
  (~ In (JString (py "outputs")) l ->
   fst (_call loads prompt stop kwargs w) = Return (py "No text generated.")).
Proof.
  intros Hnet Hs Hj.
  rewrite (call_decoded prompt stop kwargs w r _ Hnet Hs Hj).
  rewrite extract_list. split; intros Hin.
  - apply list_contains_spec in Hin. rewrite Hin. reflexivity.
  - destruct (existsb _ l) eqn:Hb; [|reflexivity].
    apply list_contains_spec in Hb. contradiction.
Qed.

(** X7. A body that decodes to a str gives the fallback string unless
    ["outputs"] occurs in it as a substring; then the call raises
    [TypeError]. *)
Theorem X7_str_document prompt stop kwargs w r (s : str) :
  network w (sent w) (posted (this w) prompt) = inl r ->
  status_code r < 400 \/ 600 <= status_code r ->
  loads (content r) = Some (JString s) ->
  ((exists a b, s = a ++ py "outputs" ++ b) ->
   fst (_call loads prompt stop kwargs w) = Raise TypeError) /\
  (~ (exists a b, s = a ++ py "outputs" ++ b) ->
   fst (_call loads prompt stop kwargs w) = Return (py "No text generated.")).
Proof.
  intros Hnet Hs Hj.
  rewrite (call_decoded prompt stop kwargs w r _ Hnet Hs Hj).
  rewrite extract_str. split; intros Hin.
  - apply str_contains_spec in Hin. rewrite Hin. reflexivity.
  - destruct (str_contains s (py "outputs")) eqn:Hb; [|reflexivity].
    apply str_contains_spec in Hb. contradiction.
Qed.

End Cases.

(** ** Malformed [outputs], and the text itself *)

Section Shapes.

Variable loads : list byte -> option json.
Context {Any : Type}.
Implicit Types (prompt : str) (stop : option (list str))
  (kwargs : gmap (list N) Any) (w : World) (r : Response)
  (m f : gmap (list N) json).

(** X8. When [outputs] is [null], a boolean or a number, [len] raises
    [TypeError]; when it is a non-empty str, its element 0 is a str and the
    subscript by ["text"] raises [TypeError]. *)
Theorem X8_outputs_not_a_list_type_error prompt stop kwargs w r m (o : json) :
  network w (sent w) (posted (this w) prompt) = inl r ->
  status_code r < 400 \/ 600 <= status_code r ->
  loads (content r) = Some (JObject m) ->
  m !! py "outputs" = Some o ->
  match o with
  | JNull | JBool _ | JInt _ | JFloat _ | JString (_ :: _) => True
  | _ => False
  end ->
  fst (_call loads prompt stop kwargs w) = Raise TypeError.
Proof.
  intros Hnet Hs Hj Ho Hshape.
  rewrite (call_decoded loads prompt stop kwargs w r _ Hnet Hs Hj).
  destruct o as [| | | |[|c s]| |]; try contradiction.
  5: { rewrite (extract_outputs_str m c s w Ho). reflexivity. }
  all: rewrite (extract_outputs_scalar m _ w Ho) by exact I; reflexivity.
Qed.

(** X9. When [outputs] is a non-empty object, the subscript [[0]] looks up
    the key 0, which no decoded object has: the call raises [KeyError] for
    0. *)
Theorem X9_outputs_object_key_error prompt stop kwargs w r m
    (m' : gmap (list N) json) :
  network w (sent w) (posted (this w) prompt) = inl r ->
  status_code r < 400 \/ 600 <= status_code r ->
  loads (content r) = Some (JObject m) ->
  m !! py "outputs" = Some (JObject m') ->
  m' <> ∅ ->
  fst (_call loads prompt stop kwargs w) = Raise (KeyError (KInt 0)).
Proof.
  intros Hnet Hs Hj Ho Hne.
  rewrite (call_decoded loads prompt stop kwargs w r _ Hnet Hs Hj).
  rewrite (extract_outputs_dict m m' w Ho Hne). reflexivity.
Qed.

(** X10. When element 0 of [outputs] is not an object (a str, a list, a
    number, a boolean or [null]), the subscript by ["text"] raises
    [TypeError]. *)
Theorem X10_element_not_object_type_error prompt stop kwargs w r m
    (e : json) (rest : list json) :
  network w (sent w) (posted (this w) prompt) = inl r ->
  status_code r < 400 \/ 600 <= status_code r ->
  loads (content r) = Some (JObject m) ->
  m !! py "outputs" = Some (JArray (e :: rest)) ->
  (forall f, e <> JObject f) ->
  fst (_call loads prompt stop kwargs w) = Raise TypeError.
Proof.
  intros Hnet Hs Hj Ho He.
  rewrite (call_decoded loads prompt stop kwargs w r _ Hnet Hs Hj).
  rewrite (extract_of_element m e rest w Ho).
  destruct e; try reflexivity. exfalso. eapply He. reflexivity.
Qed.

(** X11. When element 0 has a [text] field that does not hold a str, the
    call raises [AttributeError]: only a str has [strip]. *)
Theorem X11_text_not_str_attribute_error prompt stop kwargs w r m f
    (rest : list json) (t : json) :
  network w (sent w) (posted (this w) prompt) = inl r ->
  status_code r < 400 \/ 600 <= status_code r ->
  loads (content r) = Some (JObject m) ->
  m !! py "outputs" = Some (JArray (JObject f :: rest)) ->
  f !! py "text" = Some t ->
  (forall s, t <> JString s) ->
  fst (_call loads prompt stop kwargs w) = Raise AttributeError.
Proof.
  intros Hnet Hs Hj Ho Ht Hns.
  rewrite (call_decoded loads prompt stop kwargs w r _ Hnet Hs Hj).
  rewrite (extract_of_element m _ rest w Ho). simpl. rewrite Ht.
  destruct t; try reflexivity. exfalso. eapply Hns. reflexivity.
Qed.

(** X13. A text made of whitespace only comes back as the empty string, not
    as the fallback string. *)
Theorem X13_blank_text_returns_empty prompt stop kwargs w r m f
    (rest : list json) (t : str) :
  network w (sent w) (posted (this w) prompt) = inl r ->
  status_code r < 400 \/ 600 <= status_code r ->
  loads (content r) = Some (JObject m) ->
  m !! py "outputs" = Some (JArray (JObject f :: rest)) ->
  f !! py "text" = Some (JString t) ->
  forallb isspace t = true ->
  fst (_call loads prompt stop kwargs w) = Return [].
Proof.
  intros Hnet Hs Hj Ho Ht Hblank.
  rewrite (call_decoded loads prompt stop kwargs w r _ Hnet Hs Hj).
  rewrite (extract_of_element m _ rest w Ho). simpl. rewrite Ht.
  rewrite (strip_blank t Hblank). reflexivity.
Qed.

(** X14. A text that neither starts nor ends with whitespace comes back
    unchanged, the whitespace inside it included. *)
Theorem X14_unpadded_text_unchanged prompt stop kwargs w r m f
    (rest : list json) (t : str) :
  network w (sent w) (posted (this w) prompt) = inl r ->
  status_code r < 400 \/ 600 <= status_code r ->
  loads (content r) = Some (JObject m) ->
  m !! py "outputs" = Some (JArray (JObject f :: rest)) ->
  f !! py "text" = Some (JString t) ->
  (forall c, head t = Some c -> isspace c = false) ->
  (forall c, last t = Some c -> isspace c = false) ->
  fst (_call loads prompt stop kwargs w) = Return t.
Proof.
  intros Hnet Hs Hj Ho Ht Hh Hl.
  rewrite (call_decoded loads prompt stop kwargs w r _ Hnet Hs Hj).
  rewrite (extract_of_element m _ rest w Ho). simpl. rewrite Ht.
  rewrite (strip_id t Hh Hl). reflexivity.
Qed.

End Shapes.

(** ** What a call depends on, and what it sends *)

(** X12. Only element 0 of [outputs] is read: two responses whose decoded
    objects have [outputs] lists with the same first element give the same
    outcome, whatever else the lists and the objects hold. *)
Theorem X12_only_first_element_read (loads : list byte -> option json)
    {Any1 Any2 : Type} (prompt1 prompt2 : str)
    (stop1 stop2 : option (list str))
    (kwargs1 : gmap (list N) Any1) (kwargs2 : gmap (list N) Any2)
    (w1 w2 : World) (r1 r2 : Response) (m1 m2 : gmap (list N) json)
    (e : json) (rest1 rest2 : list json) :
  network w1 (sent w1) (posted (this w1) prompt1) = inl r1 ->
  network w2 (sent w2) (posted (this w2) prompt2) = inl r2 ->
  (status_code r1 < 400 \/ 600 <= status_code r1) ->
  (status_code r2 < 400 \/ 600 <= status_code r2) ->
  loads (content r1) = Some (JObject m1) ->
  loads (content r2) = Some (JObject m2) ->
  m1 !! py "outputs" = Some (JArray (e :: rest1)) ->
  m2 !! py "outputs" = Some (JArray (e :: rest2)) ->
  fst (_call loads prompt1 stop1 kwargs1 w1)
  = fst (_call loads prompt2 stop2 kwargs2 w2).
Proof.
  intros Hn1 Hn2 Hs1 Hs2 Hj1 Hj2 Ho1 Ho2.
  rewrite (call_decoded loads prompt1 stop1 kwargs1 w1 r1 _ Hn1 Hs1 Hj1).
  rewrite (call_decoded loads prompt2 stop2 kwargs2 w2 r2 _ Hn2 Hs2 Hj2).
  rewrite (extract_of_element m1 e rest1 w1 Ho1).
  rewrite (extract_of_element m2 e rest2 w2 Ho2). reflexivity.
Qed.


(** X15. Calls do not retry and do not skip: after any sequence of calls,
    whatever each returned or raised, the log is the log before followed by
    one request per call, in order, each the request of that call's
    prompt. *)
Theorem X15_one_request_per_call (loads : list byte -> option json)
    (cs : list Invocation) (w : World) :
  sent (run_calls loads cs w)
  = sent w ++ map (fun c => posted (this w) (inv_prompt c)) cs.
Proof.
  revert w. induction cs as [|c cs IH]; intros w; simpl.
  - rewrite app_nil_r. reflexivity.
  - rewrite IH, call_posts. simpl. rewrite <- app_assoc. reflexivity.
Qed.

(** X16. The request of a call is fixed by the endpoint, the token and the
    prompt: two adapters with the same endpoint and token post the same
    request for the same prompt, whatever their temperatures, the stop
    lists, the extra keyword arguments and the logs. *)
Theorem X16_request_ignores_temperature (loads : list byte -> option json)
    {Any1 Any2 : Type} (prompt : str) (stop1 stop2 : option (list str))
    (kwargs1 : gmap (list N) Any1) (kwargs2 : gmap (list N) Any2)
    (w1 w2 : World) :
  endpoint (this w1) = endpoint (this w2) ->
  auth_token (this w1) = auth_token (this w2) ->
  exists req,
    sent (snd (_call loads prompt stop1 kwargs1 w1)) = sent w1 ++ [req] /\
    sent (snd (_call loads prompt stop2 kwargs2 w2)) = sent w2 ++ [req].
Proof.
  intros He Ha. exists (posted (this w1) prompt). rewrite !call_posts.
  split; [reflexivity|]. simpl. unfold posted. rewrite He, Ha. reflexivity.
Qed.

(** X17. Two adapters report the same type and, as identifying parameters,
    the same mapping exactly when their endpoints and their temperatures
    are equal: the token plays no part in an adapter's identity. *)
Theorem X17_identity_is_endpoint_and_temperature (w1 w2 : World) :
  fst (_llm_type w1) = fst (_llm_type w2) /\
  (fst (_identifying_params w1) = fst (_identifying_params w2) <->
   endpoint (this w1) = endpoint (this w2) /\
   temperature (this w1) = temperature (this w2)).
Proof.
  split; [reflexivity|].
  unfold _identifying_params, bind, get_self, ret. cbn [fst]. split.
  - intros H.
    apply (f_equal (fun o : outcome (gmap (list N) param) =>
                      match o with Return ps => ps | Raise _ => ∅ end)) in H.
    cbv beta iota in H.
    assert (He := f_equal (fun ps : gmap (list N) param =>
                             ps !! py "endpoint") H).
    assert (Ht := f_equal (fun ps : gmap (list N) param =>
                             ps !! py "temperature") H).
    cbv beta in He, Ht.
    rewrite !lookup_insert_eq in He.
    rewrite !lookup_insert_ne in Ht by (vm_compute; discriminate).
    rewrite !lookup_singleton_eq in Ht.
    injection He as He. injection Ht as Ht. split; assumption.
  - intros [-> ->]. reflexivity.
Qed.

(** ** The further properties at concrete responses *)

Lemma X1_transport_error_propagates_witness :
  let w := Example.down Timeout in
  fst (_call Example.loads (py "hi") None (∅ : gmap (list N) json) w)
  = Raise (RequestException Timeout) /\
  length (sent (snd (_call Example.loads (py "hi") None
                       (∅ : gmap (list N) json) w))) = 1%nat.
Proof.
  intros w.
  rewrite (X1_transport_error_propagates Example.loads (py "hi") None
             (∅ : gmap (list N) json) w Timeout eq_refl).
  split; reflexivity.
Defined.

Lemma X2_http_error_only_for_error_status_witness :
  let r := {| status_code := 404; content := Example.body "Not Found" |} in
  400 <= status_code r < 600.
Proof.
  intros r.
  apply (X2_http_error_only_for_error_status Example.loads (py "hi") None
           (∅ : gmap (list N) json) (Example.mock r) r).
  vm_compute. reflexivity.
Defined.

Lemma X4_returned_string_unpadded_witness :
  strip (py "hello world") = py "hello world".
Proof.
  apply (X4_returned_string_unpadded Example.loads (py "hi") None
           (∅ : gmap (list N) json)
           (Example.mock (Example.ok "{'outputs':[{'text':'  hello world  '}]}"))
           (py "hello world")).
  vm_compute. reflexivity.
Defined.

Lemma X5_scalar_document_type_error_witness :
  let r := Example.ok "42" in
  fst (_call Example.loads (py "hi") None (∅ : gmap (list N) json)
         (Example.mock r)) = Raise TypeError.
Proof.
  intros r.
  apply (X5_scalar_document_type_error Example.loads (py "hi") None ∅
           (Example.mock r) r (JInt 42)).
  - reflexivity.
  - left. simpl. lia.
  - vm_compute. reflexivity.
  - exact I.
Defined.

Lemma X6_list_document_witness :
  let r := Example.ok "['outputs']" in
  fst (_call Example.loads (py "hi") None (∅ : gmap (list N) json)
         (Example.mock r)) = Raise TypeError.
Proof.
  intros r.
  apply (X6_list_document Example.loads (py "hi") None ∅
           (Example.mock r) r [JString (py "outputs")]).
  - reflexivity.
  - left. simpl. lia.
  - vm_compute. reflexivity.
  - left. reflexivity.
Defined.

Lemma X7_str_document_witness :
  let r := Example.ok "'no outputs here'" in
  fst (_call Example.loads (py "hi") None (∅ : gmap (list N) json)
         (Example.mock r)) = Raise TypeError.
Proof.
  intros r.
  apply (X7_str_document Example.loads (py "hi") None ∅
           (Example.mock r) r (py "no outputs here")).
  - reflexivity.
  - left. simpl. lia.
  - vm_compute. reflexivity.
  - exists (py "no "), (py " here"). vm_compute. reflexivity.
Defined.

Lemma X8_outputs_not_a_list_type_error_witness :
  let r := Example.ok "{'outputs':null}" in
  fst (_call Example.loads (py "hi") None (∅ : gmap (list N) json)
         (Example.mock r)) = Raise TypeError.
Proof.
  intros r.
  apply (X8_outputs_not_a_list_type_error Example.loads (py "hi") None ∅
           (Example.mock r) r {[ py "outputs" := JNull ]} JNull).
  - reflexivity.
  - left. simpl. lia.
  - vm_compute. reflexivity.
  - vm_compute. reflexivity.
  - exact I.
Defined.

Lemma X9_outputs_object_key_error_witness :
  let r := Example.ok "{'outputs':{'text':'hi'}}" in
  fst (_call Example.loads (py "hi") None (∅ : gmap (list N) json)
         (Example.mock r)) = Raise (KeyError (KInt 0)).
Proof.
  intros r.
  apply (X9_outputs_object_key_error Example.loads (py "hi") None ∅
           (Example.mock r) r
           {[ py "outputs" := JObject {[ py "text" := JString (py "hi") ]} ]}
           {[ py "text" := JString (py "hi") ]}).
  - reflexivity.
  - left. simpl. lia.
  - vm_compute. reflexivity.
  - vm_compute. reflexivity.
  - apply insert_non_empty.
Defined.

Lemma X10_element_not_object_type_error_witness :
  let r := Example.ok "{'outputs':['hello']}" in
  fst (_call Example.loads (py "hi") None (∅ : gmap (list N) json)
         (Example.mock r)) = Raise TypeError.
Proof.
  intros r.
  apply (X10_element_not_object_type_error Example.loads (py "hi") None ∅
           (Example.mock r) r
           {[ py "outputs" := JArray [JString (py "hello")] ]}
           (JString (py "hello")) []).
  - reflexivity.
  - left. simpl. lia.
  - vm_compute. reflexivity.
  - vm_compute. reflexivity.
  - intros f. discriminate.
Defined.

Lemma X11_text_not_str_attribute_error_witness :
  let r := Example.ok "{'outputs':[{'text':5}]}" in
  fst (_call Example.loads (py "hi") None (∅ : gmap (list N) json)
         (Example.mock r)) = Raise AttributeError.
Proof.
  intros r.
  apply (X11_text_not_str_attribute_error Example.loads (py "hi") None ∅
           (Example.mock r) r
           {[ py "outputs" := JArray [JObject {[ py "text" := JInt 5 ]}] ]}
           {[ py "text" := JInt 5 ]} [] (JInt 5)).
  - reflexivity.
  - left. simpl. lia.
  - vm_compute. reflexivity.
  - vm_compute. reflexivity.
  - vm_compute. reflexivity.
  - intros s. discriminate.
Defined.

Lemma X12_only_first_element_read_witness :
  let r1 := Example.ok "{'outputs':[{'text':'a'}]}" in
  let r2 := Example.ok "{'id':7,'outputs':[{'text':'a'},{'text':'b'},3]}" in
  fst (_call Example.loads (py "hi") None (∅ : gmap (list N) json)
         (Example.mock r1))
  = fst (_call Example.loads (py "hi") None (∅ : gmap (list N) json)
           (Example.mock r2)).
Proof.
  intros r1 r2.
  apply (X12_only_first_element_read Example.loads (py "hi") (py "hi")
           None None ∅ ∅ (Example.mock r1) (Example.mock r2) r1 r2
           {[ py "outputs" := JArray [JObject {[ py "text" := JString (py "a") ]}] ]}
           {[ py "id" := JInt 7;
              py "outputs" := JArray [JObject {[ py "text" := JString (py "a") ]};
                                      JObject {[ py "text" := JString (py "b") ]};
                                      JInt 3] ]}
           (JObject {[ py "text" := JString (py "a") ]}) []
           [JObject {[ py "text" := JString (py "b") ]}; JInt 3]).
  - reflexivity.
  - reflexivity.
  - left. simpl. lia.
  - left. simpl. lia.
  - vm_compute. reflexivity.
  - vm_compute. reflexivity.
  - vm_compute. reflexivity.
  - vm_compute. reflexivity.
Defined.

Lemma X13_blank_text_returns_empty_witness :
  let r := Example.ok "{'outputs':[{'text':' \t\n '}]}" in
  fst (_call Example.loads (py "hi") None (∅ : gmap (list N) json)
         (Example.mock r)) = Return [].
Proof.
  intros r.
  apply (X13_blank_text_returns_empty Example.loads (py "hi") None ∅
           (Example.mock r) r
           {[ py "outputs" :=
                JArray [JObject {[ py "text" := JString [32; 9; 10; 32]%N ]}] ]}
           {[ py "text" := JString [32; 9; 10; 32]%N ]} [] [32; 9; 10; 32]%N).
  - reflexivity.
  - left. simpl. lia.
  - vm_compute. reflexivity.
  - vm_compute. reflexivity.
  - vm_compute. reflexivity.
  - vm_compute. reflexivity.
Defined.

Lemma X14_unpadded_text_unchanged_witness :
  let r := Example.ok "{'outputs':[{'text':'two  words'}]}" in
  fst (_call Example.loads (py "hi") None (∅ : gmap (list N) json)
         (Example.mock r)) = Return (py "two  words").
Proof.
  intros r.
  apply (X14_unpadded_text_unchanged Example.loads (py "hi") None ∅
           (Example.mock r) r
           {[ py "outputs" :=
                JArray [JObject {[ py "text" := JString (py "two  words") ]}] ]}
           {[ py "text" := JString (py "two  words") ]} [] (py "two  words")).
  - reflexivity.
  - left. simpl. lia.
  - vm_compute. reflexivity.
  - vm_compute. reflexivity.
  - vm_compute. reflexivity.
  - intros c [= <-]. vm_compute. reflexivity.
  - intros c [= <-]. vm_compute. reflexivity.
Defined.

Lemma X16_request_ignores_temperature_witness :
  let r := Example.ok "{}" in
  temperature (this (Example.mock r)) <> temperature (this (Example.mock_cold r)) /\
  exists req,
    sent (snd (_call Example.loads (py "hi") None (∅ : gmap (list N) json)
                 (Example.mock r))) = [req] /\
    sent (snd (_call Example.loads (py "hi") (Some [py "."])
                 ({[ py "temperature" := JInt 2 ]} : gmap (list N) json)
                 (Example.mock_cold r))) = [req].
Proof.
  intros r. split; [vm_compute; discriminate|].
  apply (X16_request_ignores_temperature Example.loads (py "hi")
           None (Some [py "."]) ∅ {[ py "temperature" := JInt 2 ]}
           (Example.mock r) (Example.mock_cold r)); reflexivity.
Defined.

